(** * Hydrogen storefront: orders route and collection template

    A shallow embedding of the two route modules of the storefront
    (the customer orders route with its loader and view, and the
    collection template) together with the properties their
    specification states about them.

    The JavaScript runtime is modelled just far enough for the code at
    hand: dynamically typed values with truthiness, property access and
    object literals with spread; completions (normal return or a thrown
    value); and a small effect monad that records the outbound storefront
    queries a loader issues. *)

From Stdlib Require Import ZArith NArith Ascii String List Lia.
From stdpp Require Import base tactics option list strings gmap.

Set Warnings "-register-all".

Local Open Scope string_scope.
Local Open Scope Z_scope.

(** ** A fragment of the JavaScript runtime *)

Module JS.

(** Runtime values.  [Err] stands for instances of [Error] (and of its
    subclasses, told apart by [name]); numbers are the integers, which is
    all the modelled code handles (page sizes, status codes, counts). *)
Inductive value : Type :=
| Undefined
| Null
| Bool (b : bool)
| Num (n : Z)
| Str (s : string)
| Obj (fields : gmap string value)
| Err (name message : string).

(** The own properties of an object. *)
Abbreviation object := (gmap string value).

(** [ToBoolean]: what [!v] and [v ? a : b] test. *)
Definition truthy (v : value) : bool :=
  match v with
  | Undefined | Null => false
  | Bool b => b
  | Num n => negb (n =? 0)
  | Str s => negb (String.eqb s "")
  | Obj _ | Err _ _ => true
  end.

(** [v instanceof Error]. *)
Definition instanceof_Error (v : value) : bool :=
  match v with
  | Err _ _ => true
  | _ => false
  end.

Definition nullish (v : value) : bool :=
  match v with
  | Undefined | Null => true
  | _ => false
  end.

(** An object literal that ends in a spread, [{k1: v1, ..., ...o}]: the
    properties of [o] are defined last, over those written before. *)
Definition with_spread (literal o : object) : object := o ∪ literal.

(** Completion of an evaluation: a value, or a thrown value. *)
Inductive completion (A : Type) : Type :=
| Normal (a : A)
| Throw (e : value).
Arguments Normal {A} a.
Arguments Throw {A} e.

Definition TypeError (message : string) : value := Err "TypeError" message.

(** The property read [v[k]] once [v] is known not to be nullish.  Only
    the built-in properties the modelled code can meet are given. *)
Definition get_property (v : value) (k : string) : value :=
  match v with
  | Obj o => default Undefined (o !! k)
  | Err name message =>
      if String.eqb k "message" then Str message
      else if String.eqb k "name" then Str name
      else Undefined
  | Str s => if String.eqb k "length" then Num (Z.of_nat (String.length s)) else Undefined
  | _ => Undefined
  end.

(** [v.k]: reading a property of [undefined] or [null] throws. *)
Definition member (v : value) (k : string) : completion value :=
  if nullish v
  then Throw (TypeError ("Cannot read properties of undefined (reading '" +:+ k +:+ "')"))
  else Normal (get_property v k).

(** [v?.k]. *)
Definition optional_member (v : value) (k : string) : value :=
  if nullish v then Undefined else get_property v k.

(** [const {k} = v]: destructuring [undefined] or [null] throws. *)
Definition destructure (v : value) (k : string) : completion value :=
  if nullish v
  then Throw (TypeError ("Cannot destructure property '" +:+ k +:+ "' of 'undefined' as it is undefined."))
  else Normal (get_property v k).

(** Effectful evaluation: a completion together with the trace of the
    events of type [E] performed so far (here, outbound queries). *)
Definition Eff (E A : Type) : Type := list E → completion A * list E.

Definition eff_ret {E A} (a : A) : Eff E A := λ tr, (Normal a, tr).

Definition eff_bind {E A B} (f : A → Eff E B) (m : Eff E A) : Eff E B :=
  λ tr,
    match m tr with
    | (Normal a, tr') => f a tr'
    | (Throw e, tr') => (Throw e, tr')
    end.

#[global] Instance eff_mret {E} : MRet (Eff E) := @eff_ret E.
#[global] Instance eff_mbind {E} : MBind (Eff E) := @eff_bind E.

(** [throw e]. *)
Definition throw {E A} (e : value) : Eff E A := λ tr, (Throw e, tr).

(** A pure evaluation that may throw, run inside an effectful one. *)
Definition lift {E A} (c : completion A) : Eff E A := λ tr, (c, tr).

(** [try { body } catch (error) { handler }].  The events the body
    performed before it threw stay performed. *)
Definition try_catch {E A} (body : Eff E A) (handler : value → Eff E A) : Eff E A :=
  λ tr,
    match body tr with
    | (Normal a, tr') => (Normal a, tr')
    | (Throw e, tr') => handler e tr'
    end.

(** The standard base64 alphabet. *)
Definition base64_alphabet : string :=
  "ABCDEFGHIJKLMNOPQRSTUVWXYZabcdefghijklmnopqrstuvwxyz0123456789+/".

Definition base64_digit (n : N) : ascii :=
  default "="%char (String.get (N.to_nat n) base64_alphabet).

(** [btoa]: base64 of a binary string (every character is one byte, as in
    a Rocq [string]; [btoa] is defined on exactly such strings).  Three
    bytes give four digits; a last group of one or two bytes is padded
    with [=]. *)
Fixpoint btoa (s : string) : string :=
  match s with
  | EmptyString => EmptyString
  | String a EmptyString =>
      let x := N_of_ascii a in
      String (base64_digit (x / 4))
        (String (base64_digit (x mod 4 * 16)) "==")
  | String a (String b EmptyString) =>
      let x := N_of_ascii a in
      let y := N_of_ascii b in
      String (base64_digit (x / 4))
        (String (base64_digit (x mod 4 * 16 + y / 16))
           (String (base64_digit (y mod 16 * 4)) "="))
  | String a (String b (String c rest)) =>
      let x := N_of_ascii a in
      let y := N_of_ascii b in
      let z := N_of_ascii c in
      String (base64_digit (x / 4))
        (String (base64_digit (x mod 4 * 16 + y / 16))
           (String (base64_digit (y mod 16 * 4 + z / 64))
              (String (base64_digit (z mod 64)) (btoa rest))))
  end%N.

(** The value of a base64 digit: its place in the alphabet. *)
Fixpoint index_of (c : ascii) (s : string) (i : N) : option N :=
  match s with
  | EmptyString => None
  | String a s' => if Ascii.eqb a c then Some i else index_of c s' (i + 1)%N
  end.

Definition base64_value (c : ascii) : option N := index_of c base64_alphabet 0%N.

(** Decoding of padded base64, the inverse of [btoa]: four digits give
    three bytes, and only the last group may end in padding. *)
Fixpoint base64_decode (s : string) : option string :=
  match s with
  | EmptyString => Some EmptyString
  | String a (String b (String c (String d rest))) =>
      match base64_value a, base64_value b with
      | Some p, Some q =>
          let x := ascii_of_N (p * 4 + q / 16) in
          if Ascii.eqb c "=" then
            if Ascii.eqb d "=" && String.eqb rest "" then Some (String x "") else None
          else
            match base64_value c with
            | Some r =>
                let y := ascii_of_N (q mod 16 * 16 + r / 4) in
                if Ascii.eqb d "=" then
                  if String.eqb rest "" then Some (String x (String y "")) else None
                else
                  match base64_value d, base64_decode rest with
                  | Some u, Some tail =>
                      Some (String x (String y (String (ascii_of_N (r mod 4 * 64 + u)) tail)))
                  | _, _ => None
                  end
            | None => None
            end
      | _, _ => None
      end
  | _ => None
  end%N.

End JS.

Import JS.

(** ** Responses

    Modelled from the spec: the response helpers [json] and [redirect] of
    the server runtime are not among the sources.  A loader answers with
    a redirect to a location, or with a JSON body under an HTTP status;
    [json(data)] without a status is [json data 200].  The body is the
    data given to [json], before it is serialized. *)
Inductive Response : Type :=
| redirect (url : string)
| json (data : value) (status : Z).

(** ** GraphQL documents

    The route modules hold their queries as template strings.  The
    documents are kept as the strings they are; a lexer splits them into
    tokens so that the selection of a field can be read back. *)

Module GraphQL.

Definition is_punctuator (c : ascii) : bool :=
  existsb (Ascii.eqb c) (list_ascii_of_string "{}()[]:,!@=").

Definition is_blank (c : ascii) : bool :=
  existsb (Ascii.eqb c) [" "%char; "010"%char; "013"%char; "009"%char].

Definition flush (word : string) (toks : list string) : list string :=
  if String.eqb word "" then toks else toks ++ [word].

(** [lex in_comment word toks s]: [word] is the name being read, [toks]
    the tokens read so far.  A [#] starts a comment that runs to the end
    of the line. *)
Fixpoint lex (in_comment : bool) (word : string) (toks : list string) (s : string)
  : list string :=
  match s with
  | EmptyString => flush word toks
  | String c rest =>
      if in_comment then
        lex (negb (Ascii.eqb c "010"%char)) "" toks rest
      else if Ascii.eqb c "#"%char then
        lex true "" (flush word toks) rest
      else if is_blank c then
        lex false "" (flush word toks) rest
      else if is_punctuator c then
        lex false "" (flush word toks ++ [String c ""]) rest
      else
        lex false (word +:+ String c "") toks rest
  end.

Definition tokens (document : string) : list string := lex false "" [] document.

(** The names standing directly inside a brace block, up to its closing
    brace: [depth] counts the braces and parentheses open inside it. *)
Fixpoint block_fields (depth : nat) (toks : list string) : list string :=
  match toks with
  | [] => []
  | tok :: rest =>
      if String.eqb tok "{" || String.eqb tok "(" then block_fields (S depth) rest
      else if String.eqb tok "}" || String.eqb tok ")" then
        match depth with
        | O => []
        | S d => block_fields d rest
        end
      else
        match depth with
        | O => tok :: block_fields depth rest
        | S _ => block_fields depth rest
        end
  end.

(** The fields selected under the first occurrence of [field { ... }]. *)
Fixpoint selection_of (field : string) (toks : list string) : option (list string) :=
  match toks with
  | [] => None
  | tok :: rest =>
      match rest with
      | brace :: inner =>
          if String.eqb tok field && String.eqb brace "{"
          then Some (block_fields O inner)
          else selection_of field rest
      | [] => None
      end
  end.

End GraphQL.

(** ** The storefront client *)

Inductive CachingStrategy : Type :=
| CacheNone
| CacheShort
| CacheLong.

Record QueryOptions : Type := {
  variables : object;
  cache : CachingStrategy
}.

(** One outbound query: the document and the options it was sent with. *)
Record QueryCall : Type := {
  document : string;
  options : QueryOptions
}.

Record Locale : Type := {
  country : string;
  language : string
}.

(** Modelled from the spec: the storefront client of the SDK is not among
    the sources.  [storefront] holds the locale it is bound to and stands
    before the remote API, which answers a query with data or makes the
    call throw. *)
Record Storefront : Type := {
  i18n : Locale;
  remote : QueryCall → completion value
}.

(** [storefront.query(document, options)]: the call is recorded, then
    completes the way the remote API answers it. *)
Definition query (storefront : Storefront) (doc : string) (opts : QueryOptions)
  : Eff QueryCall value :=
  λ tr,
    let call := {| document := doc; options := opts |} in
    (remote storefront call, (tr ++ [call])%list).

(** A request, of which the code at hand needs the URL only. *)
Record Request : Type := {
  request_url : string
}.

Record PaginationOptions : Type := {
  pageBy : Z
}.

(** ** The orders route *)

Module OrdersRoute.

(** *** Data, as the fragments of the route select it *)

Record MoneyV2 : Type := {
  amount : string;
  currencyCode : string
}.

Record Image : Type := {
  url : string;
  altText : option string;
  height : option Z;
  width : option Z
}.

Record LineItem : Type := {
  title : string;
  variant_image : option Image
}.

Record OrderItemFragment : Type := {
  currentTotalPrice : MoneyV2;
  financialStatus : string;
  fulfillmentStatus : string;
  id : string;
  lineItems : list LineItem;
  orderNumber : Z;
  customerUrl : option string;
  statusUrl : string;
  processedAt : string
}.

(** Page info of a connection.  A cursor the response does not carry is
    [None]. *)
Record PageInfo : Type := {
  hasPreviousPage : bool;
  hasNextPage : bool;
  startCursor : option string;
  endCursor : option string
}.

Record Connection : Type := {
  nodes : list OrderItemFragment;
  pageInfo : PageInfo
}.

Record CustomerOrdersFragment : Type := {
  numberOfOrders : string;
  orders : Connection
}.

Inductive Direction : Type :=
| previous
| next.

(** The cursor of the page info that a navigation in direction [d]
    continues from, and the query variable that carries it
    ([before: $startCursor], [after: $endCursor]). *)
Definition cursor_of (d : Direction) (info : PageInfo) : option string :=
  match d with
  | previous => startCursor info
  | next => endCursor info
  end.

Definition cursor_variable (d : Direction) : string :=
  match d with
  | previous => "startCursor"
  | next => "endCursor"
  end.

(** *** What the route imports

    The helpers the module imports and does not define: [localizePath]
    (from the application's utilities), [getPaginationVariables] and the
    [Pagination] component (from the storefront SDK), the translation
    function [t] of [useTranslation], and [Date.prototype.toDateString].
    Of [Pagination] only the target of its previous and next links is
    of interest here: [Pagination_link d info] is the URL that the link
    for direction [d] navigates to for a connection with page info
    [info]. *)
Class Imports (I18n : Type) : Type := {
  localizePath : string → I18n → string;
  getPaginationVariables : Request → PaginationOptions → completion object;
  Pagination_link : Direction → PageInfo → string;
  t : string → string;
  toDateString : string → string
}.

Record AppLoadContext (I18n : Type) : Type := {
  session : gmap string value;
  storefront : Storefront;
  context_i18n : I18n
}.
Arguments session {I18n} _.
Arguments storefront {I18n} _.
Arguments context_i18n {I18n} _.

Record LoaderArgs (I18n : Type) : Type := {
  request : Request;
  context : AppLoadContext I18n
}.
Arguments request {I18n} _.
Arguments context {I18n} _.

(** [session.get(key)]: the stored value, or [undefined] when the
    session stores none under [key]. *)
Definition session_get (s : gmap string value) (key : string) : value :=
  default Undefined (s !! key).

(** *** Queries *)

Definition ORDER_ITEM_FRAGMENT : string := "#graphql
  fragment OrderItem on Order {
    currentTotalPrice {
      amount
      currencyCode
    }
    financialStatus
    fulfillmentStatus
    id
    lineItems(first: 10) {
      nodes {
        title
        variant {
          image {
            url
            altText
            height
            width
          }
        }
      }
    }
    orderNumber
    customerUrl
    statusUrl
    processedAt
  }
".

Definition CUSTOMER_FRAGMENT : string := "#graphql
  fragment CustomerOrders on Customer {
    numberOfOrders
    orders(
      sortKey: PROCESSED_AT,
      reverse: true,
      first: $first,
      last: $last,
      before: $startCursor,
      after: $endCursor
    ) {
      nodes {
        ...OrderItem
      }
      pageInfo {
        hasPreviousPage
        hasNextPage
        hasNextPage
        endCursor
      }
    }
  }
  " +:+ ORDER_ITEM_FRAGMENT +:+ "
".

Definition CUSTOMER_ORDERS_QUERY : string := "#graphql
  " +:+ CUSTOMER_FRAGMENT +:+ "
  query CustomerOrders(
    $country: CountryCode
    $customerAccessToken: String!
    $endCursor: String
    $first: Int
    $language: LanguageCode
    $last: Int
    $startCursor: String
  ) @inContext(country: $country, language: $language) {
    customer(customerAccessToken: $customerAccessToken) {
      ...CustomerOrders
    }
  }
".

(** The fields the orders connection asks for in its page info. *)
Definition pageInfo_selection : option (list string) :=
  GraphQL.selection_of "pageInfo" (GraphQL.tokens CUSTOMER_FRAGMENT).

Section Loader.
Context {I18n : Type} `{!Imports I18n}.

(** The variables of the orders query: the literal
    [{customerAccessToken, country, language, ...paginationVariables}]. *)
Definition query_variables (accessToken : value) (locale : Locale)
    (paginationVariables : object) : object :=
  with_spread
    {[ "customerAccessToken" := accessToken;
       "country" := Str (country locale);
       "language" := Str (language locale) ]}
    paginationVariables.

(** The body of the [try] block of the loader. *)
Definition loader_try (args : LoaderArgs I18n) (customerAccessToken : value)
  : Eff QueryCall Response :=
  paginationVariables ← lift (getPaginationVariables (request args) {| pageBy := 20 |});
  accessToken ← lift (member customerAccessToken "accessToken");
  data ← query (storefront (context args)) CUSTOMER_ORDERS_QUERY
            {| variables :=
                 query_variables accessToken (i18n (storefront (context args)))
                   paginationVariables;
               cache := CacheNone |};
  customer ← lift (destructure data "customer");
  if negb (truthy customer)
  then throw (Err "Error" "Customer not found")
  else mret (json (Obj {[ "customer" := customer ]}) 200).

(** The [catch] clause of the loader. *)
Definition loader_catch (error : value) : Eff QueryCall Response :=
  if instanceof_Error error
  then mret (json (Obj {[ "error" := get_property error "message" ]}) 400)
  else mret (json (Obj {[ "error" := error ]}) 400).

Definition loader (args : LoaderArgs I18n) : Eff QueryCall Response :=
  let customerAccessToken := session_get (session (context args)) "customerAccessToken" in
  if negb (truthy (optional_member customerAccessToken "accessToken"))
  then mret (redirect (localizePath "/account/login" (context_i18n (context args))))
  else try_catch (loader_try args customerAccessToken) loader_catch.

(** The access token of the session of a request:
    [customerAccessToken?.accessToken].  The request is authenticated
    when it is truthy. *)
Definition access_token (args : LoaderArgs I18n) : value :=
  optional_member (session_get (session (context args)) "customerAccessToken")
    "accessToken".

Definition authenticated (args : LoaderArgs I18n) : bool :=
  truthy (access_token args).

(** The orders query for pagination variables [paginationVariables], as
    the loader sends it on behalf of an authenticated request. *)
Definition orders_call (args : LoaderArgs I18n) (paginationVariables : object)
  : QueryCall :=
  {| document := CUSTOMER_ORDERS_QUERY;
     options :=
       {| variables :=
            query_variables (access_token args) (i18n (storefront (context args)))
              paginationVariables;
          cache := CacheNone |} |}.

End Loader.

(** *** The view

    React elements.  [Host] is a DOM element; the [El...] constructors are
    elements of components, carrying their props: those the route imports
    ([LocalizedLink], [Money], [Pagination] with the [PreviousLink] and
    [NextLink] it hands to its render prop) and those it defines, whose
    bodies are the functions below.  [Text] and [Number] are a string and
    a number given as a child, [Items] an array of elements given as one
    child. *)
Inductive element : Type :=
| Text (s : string)
| Number (n : Z)
| Items (items : list element)
| Fragment (children : list element)
| Host (tag : string) (className : option string) (children : list element)
| ElLocalizedLink (to : string) (children : list element)
| ElMoney (data : MoneyV2)
| ElPagination (connection : Connection)
    (children : list OrderItemFragment → bool → element)
| ElPreviousLink (children : list element)
| ElNextLink (children : list element)
| ElOrdersTable (orders : Connection)
| ElEmptyOrders
| ElOrderItem (key : string) (order : OrderItemFragment).

(** The targets of the [LocalizedLink]s of a tree, in document order. *)
Fixpoint links (e : element) : list string :=
  match e with
  | Items cs | Fragment cs | Host _ _ cs | ElPreviousLink cs | ElNextLink cs =>
      concat (map links cs)
  | ElLocalizedLink to cs => to :: concat (map links cs)
  | _ => []
  end.

(** The components of this module that a tree holds elements of, in
    document order. *)
Fixpoint components (e : element) : list string :=
  match e with
  | Items cs | Fragment cs | Host _ _ cs | ElPreviousLink cs | ElNextLink cs
  | ElLocalizedLink _ cs =>
      concat (map components cs)
  | ElOrdersTable _ => ["OrdersTable"]
  | ElEmptyOrders => ["EmptyOrders"]
  | ElOrderItem _ _ => ["OrderItem"]
  | _ => []
  end.

Section View.
Context {I18n : Type} `{!Imports I18n}.

Definition OrderItem (order : OrderItemFragment) : element :=
  Fragment
    [Host "fieldset" None
       [ElLocalizedLink ("/account/orders/" +:+ id order)
          [Host "strong" None [Text "#"; Number (orderNumber order)]];
        Host "p" None [Text (toDateString (processedAt order))];
        Host "p" None [Text (financialStatus order)];
        Host "p" None [Text (fulfillmentStatus order)];
        ElMoney (currentTotalPrice order);
        ElLocalizedLink ("/account/orders/" +:+ btoa (id order))
          [Text "View Order →"]];
     Host "br" None []].

Definition EmptyOrders : element :=
  Host "div" None
    [Host "p" None [Text "You haven't placed any orders yet."];
     Host "br" None [];
     Host "p" None [ElLocalizedLink "/collections" [Text "Start Shopping →"]]].

(** The rows of the table: [nodes.map((order) => <OrderItem key=... />)]. *)
Definition OrdersTable_rows (nodes : list OrderItemFragment) : list element :=
  map (λ order, ElOrderItem (id order) order) nodes.

(** The render prop that [OrdersTable] gives to [Pagination]. *)
Definition OrdersTable_children (nodes : list OrderItemFragment) (isLoading : bool)
  : element :=
  Fragment
    [ElPreviousLink
       [if isLoading
        then Host "span" None [Text (t "layout.pagination.loading")]
        else Host "span" None [Text (t "layout.pagination.previous")]];
     Items (OrdersTable_rows nodes);
     ElNextLink
       [if isLoading
        then Host "span" None [Text (t "layout.pagination.loading")]
        else Host "span" None [Text (t "layout.pagination.next")]]].

Definition OrdersTable (orders : Connection) : element :=
  Host "div" (Some "acccount-orders")
    [if negb (Nat.eqb (length (nodes orders)) 0)
     then ElPagination orders OrdersTable_children
     else ElEmptyOrders].

(** [Orders], applied to the customer that [useLoaderData] hands it. *)
Definition Orders (customer : CustomerOrdersFragment) : element :=
  Host "div" (Some "orders")
    [Host "h2" None
       [Text (t "account.home.menu.orders"); Text " ";
        Host "small" None [Text "("; Text (numberOfOrders customer); Text ")"]];
     Host "br" None [];
     if negb (Nat.eqb (length (nodes (orders customer))) 0)
     then ElOrdersTable (orders customer)
     else ElEmptyOrders].

(** What React renders for an element of a component of this module:
    the component applied to the props. *)
Definition component_body (e : element) : option element :=
  match e with
  | ElOrdersTable orders => Some (OrdersTable orders)
  | ElEmptyOrders => Some EmptyOrders
  | ElOrderItem _ order => Some (OrderItem order)
  | _ => None
  end.

(** The connection that a tree hands to [Pagination], when the first
    child of its root is the [Pagination] element. *)
Definition pagination_connection (e : element) : option Connection :=
  match e with
  | Host _ _ (ElPagination connection _ :: _) => Some connection
  | _ => None
  end.

(** The connection that the orders view hands to [Pagination]: the one
    in the body of the table element that [Orders] returns. *)
Definition orders_view_connection (customer : CustomerOrdersFragment)
  : option Connection :=
  match Orders customer with
  | Host _ _ [_; _; table] =>
      match component_body table with
      | Some body => pagination_connection body
      | None => None
      end
  | _ => None
  end.

(** One pass of rendering: every element of a component of this module
    gives way to the body of the component; the elements of imported
    components stay, with their children rendered.  Inside [Pagination]
    it is the result of the render prop that is rendered. *)
Fixpoint expand (e : element) : element :=
  match e with
  | Items cs => Items (map expand cs)
  | Fragment cs => Fragment (map expand cs)
  | Host tag className cs => Host tag className (map expand cs)
  | ElLocalizedLink to cs => ElLocalizedLink to (map expand cs)
  | ElPagination connection children =>
      ElPagination connection (λ nodes isLoading, expand (children nodes isLoading))
  | ElPreviousLink cs => ElPreviousLink (map expand cs)
  | ElNextLink cs => ElNextLink (map expand cs)
  | ElOrdersTable orders => OrdersTable orders
  | ElEmptyOrders => EmptyOrders
  | ElOrderItem _ order => OrderItem order
  | Text _ | Number _ | ElMoney _ => e
  end.

End View.

(** [meta]: the descriptors of the route, one title. *)
Definition meta : list (gmap string string) := [{[ "title" := "Orders" ]}].

End OrdersRoute.

(** ** The collection template *)

Module Collection.

Record MoneyV2 : Type := {
  amount : string;
  currencyCode : string
}.

(** The featured image; [image_id] is its [id]. *)
Record Image : Type := {
  image_id : option string;
  altText : option string;
  url : string;
  width : option Z;
  height : option Z
}.

Record PriceRange : Type := {
  minVariantPrice : MoneyV2;
  maxVariantPrice : MoneyV2
}.

Record SelectedOption : Type := {
  name : string;
  value : string
}.

Record Variant : Type := {
  selectedOptions : list SelectedOption
}.

(** [variants(first: 1) { nodes { ... } }]. *)
Record Variants : Type := {
  nodes : list Variant
}.

Record ProductItemFragment : Type := {
  id : string;
  handle : string;
  title : string;
  featuredImage : option Image;
  priceRange : PriceRange;
  variants : Variants
}.

Record PageInfo : Type := {
  hasPreviousPage : bool;
  hasNextPage : bool;
  startCursor : option string;
  endCursor : option string
}.

(** The connection of products that the template is given. *)
Module Products.
Record Connection : Type := {
  nodes : list ProductItemFragment;
  pageInfo : PageInfo
}.
End Products.

Definition PRODUCT_ITEM_FRAGMENT : string := "#graphql
  fragment MoneyProductItem on MoneyV2 {
    amount
    currencyCode
  }
  fragment ProductItem on Product {
    id
    handle
    title
    featuredImage {
      id
      altText
      url
      width
      height
    }
    priceRange {
      minVariantPrice {
        ...MoneyProductItem
      }
      maxVariantPrice {
        ...MoneyProductItem
      }
    }
    variants(first: 1) {
      nodes {
        selectedOptions {
          name
          value
        }
      }
    }
  }
".

Inductive Loading : Type :=
| eager
| lazy.

(** [useVariantUrl], from the application's variant helpers. *)
Class Imports : Type := {
  useVariantUrl : string → list SelectedOption → string
}.

(** The argument of the render prop of [PaginatedResourceSection]. *)
Record Resource : Type := {
  node : ProductItemFragment;
  index : nat
}.

Inductive element : Type :=
| Text (s : string)
| Nothing
| Host (tag : string) (className : option string) (children : list element)
| ElLink (className key prefetch to : string) (children : list element)
| ElImage (alt aspectRatio : string) (data : Image) (loading : option Loading)
    (sizes : string)
| ElMoney (data : MoneyV2)
| ElPaginatedResourceSection (connection : Products.Connection)
    (resourcesClassName : option string) (children : Resource → element)
| ElProductItem (key : string) (product : ProductItemFragment)
    (loading : option Loading).

(** The render prop of the template: [loading] is ['eager'] for the first
    eight indices and [undefined] after. *)
Definition CollectionTemplate_children (r : Resource) : element :=
  ElProductItem (id (node r)) (node r)
    (if Nat.ltb (index r) 8 then Some eager else None).

Definition CollectionTemplate (title : string) (description : option string)
    (products : Products.Connection) : element :=
  Host "div" (Some "collection")
    [Host "h1" None [Text title];
     match description with
     | Some d =>
         if String.eqb d "" then Nothing
         else Host "p" (Some "collection-description") [Text d]
     | None => Nothing
     end;
     ElPaginatedResourceSection products (Some "products-grid")
       CollectionTemplate_children].

(** Modelled from the spec: [PaginatedResourceSection] (the generic
    paginated-section renderer) is not among the sources.  It renders the
    grid by giving each node of the connection, with its position in the
    list, to its render prop. *)
Definition PaginatedResourceSection (connection : Products.Connection)
    (children : Resource → element) : list element :=
  imap (λ i n, children {| node := n; index := i |}) (Products.nodes connection).

(** The grid that the template renders: the resources of the section
    element it returns. *)
Definition grid (e : element) : list element :=
  match e with
  | Host _ _ [_; _; ElPaginatedResourceSection connection _ children] =>
      PaginatedResourceSection connection children
  | _ => []
  end.

Section ProductItem.
Context `{!Imports}.

(** [variant.selectedOptions], where [variant] is what indexing the
    array gave: [undefined] past its end. *)
Definition read_selectedOptions (variant : option Variant)
  : completion (list SelectedOption) :=
  match variant with
  | Some v => Normal (selectedOptions v)
  | None =>
      Throw (TypeError "Cannot read properties of undefined (reading 'selectedOptions')")
  end.

Definition ProductItem (product : ProductItemFragment) (loading : option Loading)
  : completion element :=
  let variant := nodes (variants product) !! 0%nat in
  match read_selectedOptions variant with
  | Throw e => Throw e
  | Normal options =>
      let variantUrl := useVariantUrl (handle product) options in
      Normal
        (ElLink "product-item" (id product) "intent" variantUrl
           [match featuredImage product with
            | Some image =>
                ElImage
                  (match altText image with
                   | Some a => if String.eqb a "" then title product else a
                   | None => title product
                   end)
                  "1/1" image loading "(min-width: 45em) 400px, 100vw"
            | None => Nothing
            end;
            Host "h4" None [Text (title product)];
            Host "small" None [ElMoney (minVariantPrice (priceRange product))]])
  end.

(** The [loading] attribute of the image a rendered item shows, if it
    shows one. *)
Definition image_loading (e : element) : option (option Loading) :=
  match e with
  | ElLink _ _ _ _ (ElImage _ _ _ loading _ :: _) => Some loading
  | _ => None
  end.

(** The target of the link a rendered item is. *)
Definition link_target (e : element) : option string :=
  match e with
  | ElLink _ _ _ to _ => Some to
  | _ => None
  end.


(** The [loading] prop of an element of [ProductItem]. *)
Definition item_loading (e : element) : option Loading :=
  match e with
  | ElProductItem _ _ loading => loading
  | _ => None
  end.

(** Rendering the items of the grid: React applies [ProductItem] to the
    props of each element in turn, and the first one that throws ends the
    rendering; the template sets up nothing that would catch it. *)
Definition render_item (e : element) : completion element :=
  match e with
  | ElProductItem _ product loading => ProductItem product loading
  | _ => Normal e
  end.

Fixpoint render_items (es : list element) : completion (list element) :=
  match es with
  | [] => Normal []
  | e :: es' =>
      match render_item e with
      | Throw x => Throw x
      | Normal r =>
          match render_items es' with
          | Throw x => Throw x
          | Normal rs => Normal (r :: rs)
          end
      end
  end.

End ProductItem.

End Collection.

(** ** Stand-ins for the imports

    Concrete helpers on which the statements below are exercised. *)

Module Sample.

Import OrdersRoute.

Fixpoint strip_prefix (p s : string) : option string :=
  match p, s with
  | EmptyString, _ => Some s
  | String a p', String b s' => if Ascii.eqb a b then strip_prefix p' s' else None
  | String _ _, EmptyString => None
  end.

Definition direction_name (d : Direction) : string :=
  match d with
  | previous => "previous"
  | next => "next"
  end.

Definition link_prefix (d : Direction) : string :=
  "?direction=" +:+ direction_name d +:+ "&cursor=".

(** Modelled from the spec: the [Pagination] component of the storefront
    SDK is not among the sources.  Its previous and next links preserve
    the cursor state: the link for a direction carries the cursor of the
    page info for that direction in the query string. *)
Definition sample_Pagination_link (d : Direction) (info : PageInfo) : string :=
  match cursor_of d info with
  | Some c => link_prefix d +:+ c
  | None => EmptyString
  end.

(** Modelled from the spec: [getPaginationVariables] of the storefront
    SDK is not among the sources.  It builds the pagination variables
    from the query string of the request: the page size asked for, and
    the cursor value echoed from the query string. *)
Definition sample_getPaginationVariables (request : Request)
    (options : PaginationOptions) : completion object :=
  match strip_prefix (link_prefix previous) (request_url request) with
  | Some c => Normal {[ "last" := Num (pageBy options); "startCursor" := Str c ]}
  | None =>
      match strip_prefix (link_prefix next) (request_url request) with
      | Some c => Normal {[ "first" := Num (pageBy options); "endCursor" := Str c ]}
      | None => Normal {[ "first" := Num (pageBy options); "endCursor" := Null ]}
      end
  end.

(** Modelled from the spec: [localizePath] of the application's
    utilities is not among the sources.  Here the locale context is a
    path prefix, put before the path. *)
Definition sample_localizePath (path : string) (prefix : string) : string :=
  prefix +:+ path.

#[local] Instance sample_imports : Imports string := {|
  localizePath := sample_localizePath;
  getPaginationVariables := sample_getPaginationVariables;
  Pagination_link := sample_Pagination_link;
  t := λ key, key;
  toDateString := λ date, date
|}.

Definition sample_token : value := Obj {[ "accessToken" := Str "token-1" ]}.

(** A storefront whose remote API answers every query with [answer]. *)
Definition sample_storefront (answer : completion value) : Storefront :=
  {| i18n := {| country := "CA"; language := "FR" |};
     remote := λ _, answer |}.

Definition sample_args (stored : gmap string value) (answer : completion value)
    (url : string) : LoaderArgs string :=
  {| request := {| request_url := url |};
     context :=
       {| session := stored;
          storefront := sample_storefront answer;
          context_i18n := "/fr-ca" |} |}.

(** A request without a session, and the request of a signed-in
    customer. *)
Definition guest_args : LoaderArgs string :=
  sample_args ∅ (Normal Undefined) "/account/orders".

Definition customer_args (answer : completion value) (url : string)
  : LoaderArgs string :=
  sample_args {[ "customerAccessToken" := sample_token ]} answer url.

Definition throwing_args : LoaderArgs string :=
  customer_args (Throw (Err "Error" "boom")) "/account/orders".

Definition no_customer_args : LoaderArgs string :=
  customer_args (Normal (Obj {[ "customer" := Null ]})) "/account/orders".

Definition next_page_args : LoaderArgs string :=
  customer_args (Normal (Obj {[ "customer" := Obj ∅ ]}))
    "?direction=next&cursor=abc".

Definition first_page : object := {[ "first" := Num 20; "endCursor" := Null ]}.

Definition page_after (cursor : string) : object :=
  {[ "first" := Num 20; "endCursor" := Str cursor ]}.

Definition sample_order : OrderItemFragment :=
  {| currentTotalPrice := {| amount := "10.0"; currencyCode := "CAD" |};
     financialStatus := "PAID";
     fulfillmentStatus := "FULFILLED";
     id := "gid://shopify/Order/1";
     lineItems := [];
     orderNumber := 1001;
     customerUrl := None;
     statusUrl := "https://shop.example/orders/1";
     processedAt := "2023-07-01T00:00:00Z" |}.

(** A customer as a response to the orders query carries it: the page
    info holds the end cursor and, not being asked for, no start
    cursor. *)
Definition sample_customer (orders_nodes : list OrderItemFragment)
    (cursor : option string) : CustomerOrdersFragment :=
  {| numberOfOrders := "1";
     orders :=
       {| nodes := orders_nodes;
          pageInfo :=
            {| hasPreviousPage := false;
               hasNextPage := true;
               startCursor := None;
               endCursor := cursor |} |} |}.

(** A session whose token object holds an empty access token. *)
Definition empty_token_args : LoaderArgs string :=
  sample_args {[ "customerAccessToken" := Obj {[ "accessToken" := Str "" ]} ]}
    (Normal Undefined) "/account/orders".

(** The request of a signed-in customer that the remote API answers with
    no data. *)
Definition no_data_args : LoaderArgs string :=
  customer_args (Normal Undefined) "/account/orders".

(** Imports whose [getPaginationVariables] throws on every request. *)
Definition failing_imports : Imports string :=
  {| localizePath := sample_localizePath;
     getPaginationVariables := λ _ _, Throw (Err "Error" "no request");
     Pagination_link := sample_Pagination_link;
     t := λ key, key;
     toDateString := λ date, date |}.


End Sample.

Module CollectionSample.

Import Collection.

(** Modelled from the spec: [useVariantUrl] of the application's variant
    helpers is not among the sources.  It derives a variant-specific URL
    from the product handle and the selected options of the variant. *)
Definition sample_useVariantUrl (handle : string) (options : list SelectedOption)
  : string :=
  "/products/" +:+ handle +:+ "?"
  +:+ String.concat "&" (map (λ o, name o +:+ "=" +:+ value o) options).

#[local] Instance sample_imports : Imports := {|
  useVariantUrl := sample_useVariantUrl
|}.

Definition sample_product (product_variants : list Variant) : ProductItemFragment :=
  {| id := "gid://shopify/Product/1";
     handle := "snowboard";
     title := "Snowboard";
     featuredImage :=
       Some {| image_id := None; altText := None;
               url := "https://cdn.example/snowboard.png";
               width := Some 400; height := Some 400 |};
     priceRange :=
       {| minVariantPrice := {| amount := "10.0"; currencyCode := "CAD" |};
          maxVariantPrice := {| amount := "20.0"; currencyCode := "CAD" |} |};
     variants := {| nodes := product_variants |} |}.

Definition sample_variant : Variant :=
  {| selectedOptions := [{| name := "Size"; value := "154cm" |}] |}.

Definition sample_products (n : nat) : Products.Connection :=
  {| Products.nodes := replicate n (sample_product [sample_variant]);
     Products.pageInfo :=
       {| hasPreviousPage := false;
          hasNextPage := false;
          startCursor := None;
          endCursor := None |} |}.

(** A product without a featured image. *)
Definition plain_product : ProductItemFragment :=
  {| id := "gid://shopify/Product/2";
     handle := "wax";
     title := "Wax";
     featuredImage := None;
     priceRange :=
       {| minVariantPrice := {| amount := "5.0"; currencyCode := "CAD" |};
          maxVariantPrice := {| amount := "5.0"; currencyCode := "CAD" |} |};
     variants := {| nodes := [sample_variant] |} |}.


End CollectionSample.

(** * Properties *)

(** ** The orders loader *)

Section LoaderProperties.
Import OrdersRoute.
Context {I18n : Type} `{!Imports I18n}.
Implicit Types (args : LoaderArgs I18n) (tr : list QueryCall).

Lemma optional_member_truthy (v : value) (k : string) :
  truthy (optional_member v k) = true →
  nullish v = false ∧ member v k = Normal (optional_member v k).
Proof.
  unfold optional_member, member.
  destruct (nullish v) eqn:Hv; [done|]. by intros _.
Qed.

(** Without a truthy access token the loader stops at the guard. *)
Lemma loader_unauthenticated args tr :
  authenticated args = false →
  loader args tr
  = (Normal (redirect (localizePath "/account/login" (context_i18n (context args)))), tr).
Proof.
  unfold authenticated, access_token, loader. intros ->. reflexivity.
Qed.

(** With one, it runs the [try] block under the [catch] clause. *)
Lemma loader_authenticated args tr :
  authenticated args = true →
  loader args tr
  = try_catch
      (loader_try args (session_get (session (context args)) "customerAccessToken"))
      loader_catch tr.
Proof.
  unfold authenticated, access_token, loader. intros ->. reflexivity.
Qed.

(** The [try] block up to the answer of the remote API: once the
    pagination variables are built, the query is sent, and what follows
    depends on the answer alone. *)
Lemma loader_try_query args tr (pv : object) :
  authenticated args = true →
  getPaginationVariables (request args) {| pageBy := 20 |} = Normal pv →
  loader_try args (session_get (session (context args)) "customerAccessToken") tr
  = match remote (storefront (context args)) (orders_call args pv) with
    | Normal data =>
        match destructure data "customer" with
        | Normal customer =>
            if negb (truthy customer)
            then (Throw (Err "Error" "Customer not found"), tr ++ [orders_call args pv])
            else (Normal (json (Obj {[ "customer" := customer ]}) 200),
                  tr ++ [orders_call args pv])
        | Throw e => (Throw e, tr ++ [orders_call args pv])
        end
    | Throw e => (Throw e, tr ++ [orders_call args pv])
    end%list.
Proof.
  intros Hauth Hpv.
  apply optional_member_truthy in Hauth as [_ Hmember].
  unfold loader_try, mbind, eff_mbind, eff_bind, lift, query.
  rewrite Hpv, Hmember. fold (access_token args). fold (orders_call args pv).
  destruct (remote _ _) as [data|e]; [|done].
  destruct (destructure data "customer") as [customer|e]; [|done].
  by destruct (truthy customer).
Qed.

(** The whole loader on an authenticated request whose query the remote
    API makes throw: the [catch] clause gets the thrown value. *)
Lemma loader_query_throws args tr (pv : object) (e : value) :
  authenticated args = true →
  getPaginationVariables (request args) {| pageBy := 20 |} = Normal pv →
  remote (storefront (context args)) (orders_call args pv) = Throw e →
  loader args tr = loader_catch e (tr ++ [orders_call args pv])%list.
Proof.
  intros Hauth Hpv Hremote.
  rewrite loader_authenticated by done. unfold try_catch.
  rewrite (loader_try_query _ _ pv) by done. by rewrite Hremote.
Qed.

(** When building the pagination variables throws, the [catch] clause
    gets the thrown value before any query is sent. *)
Lemma loader_pagination_throws args tr (e : value) :
  authenticated args = true →
  getPaginationVariables (request args) {| pageBy := 20 |} = Throw e →
  loader args tr = loader_catch e tr.
Proof.
  intros Hauth Hpv.
  rewrite loader_authenticated by done.
  unfold try_catch, loader_try, mbind, eff_mbind, eff_bind, lift.
  by rewrite Hpv.
Qed.

(** One query is sent, whatever the remote API answers. *)
Lemma loader_trace args tr (pv : object) :
  authenticated args = true →
  getPaginationVariables (request args) {| pageBy := 20 |} = Normal pv →
  snd (loader args tr) = (tr ++ [orders_call args pv])%list.
Proof.
  intros Hauth Hpv.
  rewrite loader_authenticated by done. unfold try_catch.
  rewrite (loader_try_query _ _ pv) by done.
  destruct (remote _ _) as [data|e].
  - destruct (destructure data "customer") as [customer|e].
    + destruct (truthy customer); [done|]. cbn.
      unfold loader_catch. by cbn.
    + unfold loader_catch. by destruct (instanceof_Error e).
  - unfold loader_catch. by destruct (instanceof_Error e).
Qed.

(** Pagination variables pass through the spread unchanged. *)
Lemma query_variables_pagination (tok : value) (locale : Locale) (pv : object)
    (k : string) (v : value) :
  pv !! k = Some v → query_variables tok locale pv !! k = Some v.
Proof. intros Hk. unfold query_variables, with_spread. by apply lookup_union_Some_l. Qed.

(** A variable that the pagination variables leave alone keeps the value
    the literal gives it. *)
Lemma query_variables_literal (tok : value) (locale : Locale) (pv : object)
    (k : string) :
  pv !! k = None →
  query_variables tok locale pv !! k
  = ({[ "customerAccessToken" := tok;
        "country" := Str (country locale);
        "language" := Str (language locale) ]} : object) !! k.
Proof. intros Hk. unfold query_variables, with_spread. by rewrite lookup_union_r. Qed.

(** C1.  A request whose session holds no customer access token, or
    holds a token object without an [accessToken] field, is answered
    with a redirect to the localized login path ['/account/login'], and
    the trace of outbound queries is left as it was: none is issued. *)
Theorem loader_redirects_to_login args tr :
  (session (context args) !! "customerAccessToken" = None
   ∨ ∃ fields : object,
       session (context args) !! "customerAccessToken" = Some (Obj fields)
       ∧ fields !! "accessToken" = None) →
  loader args tr
  = (Normal (redirect (localizePath "/account/login" (context_i18n (context args)))), tr).
Proof.
  intros Hsession. apply loader_unauthenticated.
  unfold authenticated, access_token, session_get.
  destruct Hsession as [-> | (fields & -> & Hfield)]; [done|].
  cbn. by rewrite Hfield.
Qed.

(** C2.  When the request is authenticated and the remote query throws
    [e], the loader answers with status 400 and a JSON body whose [error]
    is the message of [e] if [e] is an [Error], and [e] itself, unchanged,
    if it is any other value. *)
Theorem loader_maps_thrown_value_to_400 args tr (pv : object) (e : value) :
  authenticated args = true →
  getPaginationVariables (request args) {| pageBy := 20 |} = Normal pv →
  remote (storefront (context args)) (orders_call args pv) = Throw e →
  fst (loader args tr)
  = Normal
      (json (Obj {[ "error" := match e with
                               | Err _ message => Str message
                               | _ => e
                               end ]}) 400).
Proof.
  intros Hauth Hpv Hremote.
  rewrite (loader_query_throws _ _ pv e) by done.
  by destruct e.
Qed.

(** C3.  When the request is authenticated and the remote query
    succeeds with data that hold no customer, the [try] block throws the
    error ['Customer not found'], the [catch] clause of the loader gets
    it, and the loader answers with status 400 and the body
    [{error: 'Customer not found'}]. *)
Theorem loader_customer_not_found args tr (pv : object) (data : value) :
  authenticated args = true →
  getPaginationVariables (request args) {| pageBy := 20 |} = Normal pv →
  remote (storefront (context args)) (orders_call args pv) = Normal data →
  nullish data = false →
  truthy (get_property data "customer") = false →
  fst (loader_try args (session_get (session (context args)) "customerAccessToken") tr)
  = Throw (Err "Error" "Customer not found")
  ∧ loader args tr
    = loader_catch (Err "Error" "Customer not found") (tr ++ [orders_call args pv])%list
  ∧ fst (loader args tr)
    = Normal (json (Obj {[ "error" := Str "Customer not found" ]}) 400).
Proof.
  intros Hauth Hpv Hremote Hdata Hcustomer.
  assert (Htry : loader_try args
                   (session_get (session (context args)) "customerAccessToken") tr
                 = (Throw (Err "Error" "Customer not found"),
                    (tr ++ [orders_call args pv])%list)).
  { rewrite (loader_try_query _ _ pv) by done.
    rewrite Hremote. unfold destructure. rewrite Hdata, Hcustomer. done. }
  assert (Hloader : loader args tr
                    = loader_catch (Err "Error" "Customer not found")
                        (tr ++ [orders_call args pv])%list).
  { rewrite loader_authenticated by done. unfold try_catch. by rewrite Htry. }
  split_and!; [by rewrite Htry | done | by rewrite Hloader].
Qed.

(** C4.  An authenticated request makes the loader issue exactly one
    outbound query: the customer orders query, sent past the cache, whose
    variables hold every pagination variable that
    [getPaginationVariables] built from the request at page size 20, and,
    where the pagination variables do not define them, the access token
    of the session and the country and language of the locale. *)
Theorem loader_issues_one_query args (pv : object) :
  authenticated args = true →
  getPaginationVariables (request args) {| pageBy := 20 |} = Normal pv →
  ∃ call : QueryCall,
    snd (loader args []) = [call]
    ∧ document call = CUSTOMER_ORDERS_QUERY
    ∧ cache (options call) = CacheNone
    ∧ (∀ k v, pv !! k = Some v → variables (options call) !! k = Some v)
    ∧ (pv !! "customerAccessToken" = None →
       variables (options call) !! "customerAccessToken" = Some (access_token args))
    ∧ (pv !! "country" = None →
       variables (options call) !! "country"
       = Some (Str (country (i18n (storefront (context args))))))
    ∧ (pv !! "language" = None →
       variables (options call) !! "language"
       = Some (Str (language (i18n (storefront (context args)))))).
Proof.
  intros Hauth Hpv. exists (orders_call args pv).
  split_and!; try done.
  - by rewrite (loader_trace _ _ pv).
  - intros k v. apply query_variables_pagination.
  - intros Hk. cbn. by rewrite query_variables_literal.
  - intros Hk. cbn. by rewrite query_variables_literal.
  - intros Hk. cbn. by rewrite query_variables_literal.
Qed.

(** The view hands the orders connection of the customer, as it is, to
    [Pagination]. *)
Lemma orders_view_connection_nonempty (customer : CustomerOrdersFragment) :
  nodes (orders customer) ≠ [] →
  orders_view_connection customer = Some (orders customer).
Proof.
  intros Hnodes. unfold orders_view_connection, Orders.
  destruct (nodes (orders customer)) as [|order rest] eqn:Heq; [done|].
  cbn. unfold OrdersTable. rewrite Heq. reflexivity.
Qed.

(** C8.  A cursor received in the page info of a response reaches the
    remote API unchanged on the navigation that continues from it.  The
    view hands the connection, page info included, to [Pagination] as it
    came; and for any SDK whose helper reads back the cursor that its
    link carries, the loader, run on the request of that link, sends one
    query whose cursor variable is that same string. *)
Theorem cursor_round_trip (customer : CustomerOrdersFragment) (d : Direction)
    (c : string) :
  (∀ (info : PageInfo) (c' : string),
     cursor_of d info = Some c' →
     ∃ pv : object,
       getPaginationVariables {| request_url := Pagination_link d info |}
         {| pageBy := 20 |} = Normal pv
       ∧ pv !! cursor_variable d = Some (Str c')) →
  nodes (orders customer) ≠ [] →
  cursor_of d (pageInfo (orders customer)) = Some c →
  ∃ connection : Connection,
    orders_view_connection customer = Some connection
    ∧ ∀ args,
        authenticated args = true →
        request args = {| request_url := Pagination_link d (pageInfo connection) |} →
        ∃ call : QueryCall,
          snd (loader args []) = [call]
          ∧ variables (options call) !! cursor_variable d = Some (Str c).
Proof.
  intros Hsdk Hnodes Hcursor. exists (orders customer).
  split; [by apply orders_view_connection_nonempty|].
  intros args Hauth Hrequest.
  destruct (Hsdk _ _ Hcursor) as (pv & Hpv & Hk).
  rewrite <- Hrequest in Hpv.
  exists (orders_call args pv). split.
  - by rewrite (loader_trace _ _ pv).
  - cbn. by apply query_variables_pagination.
Qed.

End LoaderProperties.

(** ** Base64

    [btoa] can be decoded, so the encoded identifier names the same
    order as the raw one. *)

Section Base64.
Local Open Scope N_scope.

Lemma base64_digit_spec_all :
  forallb (λ n : nat,
             match base64_value (base64_digit (N.of_nat n)) with
             | Some m => N.eqb m (N.of_nat n) && negb (Ascii.eqb (base64_digit (N.of_nat n)) "=")
             | None => false
             end) (seq 0 64) = true.
Proof. vm_compute. reflexivity. Qed.

Lemma base64_digit_value (n : N) :
  n < 64 →
  base64_value (base64_digit n) = Some n ∧ Ascii.eqb (base64_digit n) "=" = false.
Proof.
  intros Hn.
  pose proof (proj1 (forallb_forall _ _) base64_digit_spec_all (N.to_nat n)) as Hall.
  assert (Hin : In (N.to_nat n) (seq 0 64)) by (apply in_seq; lia).
  specialize (Hall Hin). cbv beta in Hall.
  rewrite N2Nat.id in Hall.
  destruct (base64_value (base64_digit n)) as [m|]; [|done].
  apply andb_prop in Hall as [Hm Hpad].
  apply N.eqb_eq in Hm as ->. split; [done|].
  by apply negb_true_iff.
Qed.

Lemma byte_bound (a : ascii) : N_of_ascii a < 256.
Proof. apply N_ascii_bounded. Qed.

Ltac div_mod_lia := zify; Z.to_euclidean_division_equations; lia.

Ltac digit_value n :=
  let Hv := fresh "Hv" in
  let Hp := fresh "Hp" in
  destruct (base64_digit_value n) as [Hv Hp]; [div_mod_lia|];
  rewrite ?Hv, ?Hp; clear Hv Hp.

Lemma byte_of_N (a : ascii) (n : N) : n = N_of_ascii a → ascii_of_N n = a.
Proof. intros ->. apply ascii_N_embedding. Qed.

Lemma base64_decode_btoa_bounded (n : nat) (s : string) :
  (String.length s ≤ n)%nat → base64_decode (btoa s) = Some s.
Proof.
  revert s. induction n as [n IH] using lt_wf_ind. intros s Hlen.
  destruct s as [|a [|b [|c rest]]]; [done| | |].
  - pose proof (byte_bound a).
    cbn [btoa base64_decode]. 
    digit_value (N_of_ascii a / 4). digit_value (N_of_ascii a mod 4 * 16).
    cbn. f_equal. f_equal. apply byte_of_N. div_mod_lia.
  - pose proof (byte_bound a). pose proof (byte_bound b).
    cbn [btoa base64_decode].
    digit_value (N_of_ascii a / 4).
    digit_value (N_of_ascii a mod 4 * 16 + N_of_ascii b / 16).
    digit_value (N_of_ascii b mod 16 * 4).
    cbn. f_equal. f_equal; [|f_equal]; apply byte_of_N; div_mod_lia.
  - pose proof (byte_bound a). pose proof (byte_bound b). pose proof (byte_bound c).
    cbn [btoa base64_decode].
    digit_value (N_of_ascii a / 4).
    digit_value (N_of_ascii a mod 4 * 16 + N_of_ascii b / 16).
    digit_value (N_of_ascii b mod 16 * 4 + N_of_ascii c / 64).
    digit_value (N_of_ascii c mod 64).
    rewrite (IH (String.length rest)); [|cbn in Hlen; lia|done].
    f_equal. f_equal; [|f_equal; [|f_equal]]; apply byte_of_N; div_mod_lia.
Qed.

Lemma base64_decode_btoa (s : string) : base64_decode (btoa s) = Some s.
Proof. by apply (base64_decode_btoa_bounded (String.length s)). Qed.

End Base64.

Example btoa_Man : btoa "Man" = "TWFu".
Proof. reflexivity. Qed.

Example btoa_Ma : btoa "Ma" = "TWE=".
Proof. reflexivity. Qed.

Example btoa_M : btoa "M" = "TQ==".
Proof. reflexivity. Qed.

Example btoa_order_gid : btoa "gid://shopify/Order/1" = "Z2lkOi8vc2hvcGlmeS9PcmRlci8x".
Proof. reflexivity. Qed.

(** ** The orders view and the orders fragment *)

Section ViewProperties.
Import OrdersRoute.
Context {I18n : Type} `{!Imports I18n}.

(** C5.  In the orders fragment the page info asks for
    [hasPreviousPage], for [hasNextPage] twice, and for [endCursor]; it
    does not ask for [startCursor]. *)
Theorem pageInfo_selection_lacks_startCursor :
  pageInfo_selection
  = Some ["hasPreviousPage"; "hasNextPage"; "hasNextPage"; "endCursor"]
  ∧ ∀ fields : list string,
      pageInfo_selection = Some fields → "startCursor" ∉ fields.
Proof.
  assert (Hsel : pageInfo_selection
                 = Some ["hasPreviousPage"; "hasNextPage"; "hasNextPage"; "endCursor"])
    by (vm_compute; reflexivity).
  split; [done|]. intros fields. rewrite Hsel. intros [= <-].
  rewrite !not_elem_of_cons. split_and!; try done. apply not_elem_of_nil.
Qed.

(** C7.  For a customer whose orders connection has no nodes, the
    orders view returns the heading followed by the empty-state element:
    the only component of the module in the tree is [EmptyOrders], whose
    body is the fallback message, and no connection goes to
    [Pagination]. *)
Theorem orders_view_empty_state (customer : CustomerOrdersFragment) :
  nodes (orders customer) = [] →
  Orders customer
  = Host "div" (Some "orders")
      [Host "h2" None
         [Text (t "account.home.menu.orders"); Text " ";
          Host "small" None [Text "("; Text (numberOfOrders customer); Text ")"]];
       Host "br" None [];
       ElEmptyOrders]
  ∧ components (Orders customer) = ["EmptyOrders"]
  ∧ component_body ElEmptyOrders = Some EmptyOrders
  ∧ orders_view_connection customer = None.
Proof.
  intros Hnodes. unfold orders_view_connection, Orders. rewrite Hnodes. done.
Qed.

(** With nodes, it is the table that the view returns. *)
Lemma orders_view_table (customer : CustomerOrdersFragment) :
  nodes (orders customer) ≠ [] →
  components (Orders customer) = ["OrdersTable"].
Proof.
  intros Hnodes. unfold Orders.
  by destruct (nodes (orders customer)).
Qed.

Lemma order_item_links (order : OrderItemFragment) :
  links (OrderItem order)
  = ["/account/orders/" +:+ id order; "/account/orders/" +:+ btoa (id order)].
Proof. reflexivity. Qed.

(** C9.  Every order among the nodes given to the table has a row, the
    element of [OrderItem] for that order, and the row holds two links to
    the order-detail route: the first with the raw identifier of the order
    in its path, the second with the base64 encoding of that identifier,
    which decodes to the same identifier. *)
Theorem order_row_links (orders_nodes : list OrderItemFragment) (i : nat)
    (order : OrderItemFragment) :
  orders_nodes !! i = Some order →
  ∃ row : element,
    OrdersTable_rows orders_nodes !! i = Some row
    ∧ component_body row = Some (OrderItem order)
    ∧ links (OrderItem order)
      = ["/account/orders/" +:+ id order; "/account/orders/" +:+ btoa (id order)]
    ∧ base64_decode (btoa (id order)) = Some (id order).
Proof.
  intros Hi. exists (ElOrderItem (id order) order).
  split_and!; [|done|done|apply base64_decode_btoa].
  unfold OrdersTable_rows. by rewrite list_lookup_fmap, Hi.
Qed.

End ViewProperties.

(** ** The collection template *)

Section CollectionProperties.
Import Collection.
Context `{!Imports}.

Lemma product_item_image_loading (product : ProductItemFragment)
    (loading : option Loading) (image : Image) (e : element) :
  featuredImage product = Some image →
  ProductItem product loading = Normal e →
  image_loading e = Some loading.
Proof.
  unfold ProductItem. intros Himage.
  destruct (read_selectedOptions _); [|done].
  rewrite Himage. by intros [= <-].
Qed.

(** C6.  The grid item at index [i] of a product list is the
    [ProductItem] element of the product at [i], given ['eager'] as its
    [loading] prop when [i] is among the first eight indices and no
    [loading] at all from index 8 on; and an item that renders with a
    featured image passes that prop on to the image. *)
Theorem grid_items_loading (title : string) (description : option string)
    (products : Products.Connection) (i : nat) (product : ProductItemFragment) :
  Products.nodes products !! i = Some product →
  ∃ loading : option Loading,
    grid (CollectionTemplate title description products) !! i
    = Some (ElProductItem (id product) product loading)
    ∧ ((i < 8)%nat → loading = Some eager)
    ∧ ((8 ≤ i)%nat → loading = None)
    ∧ ∀ (image : Image) (e : element),
        featuredImage product = Some image →
        ProductItem product loading = Normal e →
        image_loading e = Some loading.
Proof.
  intros Hi. exists (if Nat.ltb i 8 then Some eager else None).
  split_and!.
  - cbn. unfold PaginatedResourceSection. rewrite list_lookup_imap, Hi. done.
  - intros Hlt. by apply Nat.ltb_lt in Hlt as ->.
  - intros Hge. by apply Nat.ltb_ge in Hge as ->.
  - intros image e. apply product_item_image_loading.
Qed.

(** C10.  [ProductItem] reads the first variant node without a guard.
    For a product with no variant nodes the read gives no value and
    reading [selectedOptions] of it throws a [TypeError]; the item renders
    exactly when the product has a variant node, and then links to the
    URL of the first variant. *)
Theorem product_item_needs_a_variant (product : ProductItemFragment)
    (loading : option Loading) :
  (nodes (variants product) = [] →
   nodes (variants product) !! 0%nat = None
   ∧ ∃ message : string, ProductItem product loading = Throw (TypeError message))
  ∧ (∀ (variant : Variant) (rest : list Variant),
       nodes (variants product) = variant :: rest →
       ∃ e : element,
         ProductItem product loading = Normal e
         ∧ link_target e
           = Some (useVariantUrl (handle product) (selectedOptions variant)))
  ∧ ((∃ e : element, ProductItem product loading = Normal e)
     ↔ nodes (variants product) ≠ []).
Proof.
  unfold ProductItem. split_and!.
  - intros ->. split; [done|]. cbn. eauto.
  - intros variant rest ->. cbn. eauto.
  - destruct (nodes (variants product)) as [|variant rest]; cbn.
    + split; [by intros [e ?]|done].
    + split; [done|eauto].
Qed.

End CollectionProperties.

(** ** The statements at concrete requests *)

Section LoaderWitnesses.
Import OrdersRoute Sample.
#[local] Existing Instance sample_imports.

Lemma loader_redirects_to_login_witness :
  (session (context guest_args) !! "customerAccessToken" = None
   ∨ ∃ fields : object,
       session (context guest_args) !! "customerAccessToken" = Some (Obj fields)
       ∧ fields !! "accessToken" = None)
  ∧ loader guest_args [] = (Normal (redirect "/fr-ca/account/login"), []).
Proof.
  split.
  - left. reflexivity.
  - exact (loader_redirects_to_login guest_args [] (or_introl eq_refl)).
Defined.

Lemma loader_maps_thrown_value_to_400_witness :
  authenticated throwing_args = true
  ∧ getPaginationVariables (request throwing_args) {| pageBy := 20 |}
    = Normal first_page
  ∧ remote (storefront (context throwing_args)) (orders_call throwing_args first_page)
    = Throw (Err "Error" "boom")
  ∧ fst (loader throwing_args [])
    = Normal (json (Obj {[ "error" := Str "boom" ]}) 400).
Proof.
  split; [reflexivity|]. split; [reflexivity|]. split; [reflexivity|].
  exact (loader_maps_thrown_value_to_400 throwing_args [] first_page
           (Err "Error" "boom") eq_refl eq_refl eq_refl).
Defined.

Lemma loader_customer_not_found_witness :
  authenticated no_customer_args = true
  ∧ getPaginationVariables (request no_customer_args) {| pageBy := 20 |}
    = Normal first_page
  ∧ remote (storefront (context no_customer_args))
      (orders_call no_customer_args first_page)
    = Normal (Obj {[ "customer" := Null ]})
  ∧ nullish (Obj {[ "customer" := Null ]}) = false
  ∧ truthy (get_property (Obj {[ "customer" := Null ]}) "customer") = false
  ∧ fst (loader no_customer_args [])
    = Normal (json (Obj {[ "error" := Str "Customer not found" ]}) 400).
Proof.
  split; [reflexivity|]. split; [reflexivity|]. split; [reflexivity|].
  split; [reflexivity|]. split; [reflexivity|].
  exact (proj2 (proj2
           (loader_customer_not_found no_customer_args [] first_page
              (Obj {[ "customer" := Null ]}) eq_refl eq_refl eq_refl eq_refl eq_refl))).
Defined.

Lemma loader_issues_one_query_witness :
  authenticated next_page_args = true
  ∧ getPaginationVariables (request next_page_args) {| pageBy := 20 |}
    = Normal (page_after "abc")
  ∧ ∃ call : QueryCall,
      snd (loader next_page_args []) = [call]
      ∧ document call = CUSTOMER_ORDERS_QUERY
      ∧ cache (options call) = CacheNone
      ∧ variables (options call) !! "first" = Some (Num 20)
      ∧ variables (options call) !! "endCursor" = Some (Str "abc")
      ∧ variables (options call) !! "customerAccessToken" = Some (Str "token-1")
      ∧ variables (options call) !! "country" = Some (Str "CA")
      ∧ variables (options call) !! "language" = Some (Str "FR").
Proof.
  assert (Hauth : authenticated next_page_args = true) by reflexivity.
  assert (Hpv : getPaginationVariables (request next_page_args) {| pageBy := 20 |}
                = Normal (page_after "abc")) by reflexivity.
  split; [exact Hauth|]. split; [exact Hpv|].
  destruct (loader_issues_one_query next_page_args (page_after "abc") Hauth Hpv)
    as (call & Htrace & Hdoc & Hcache & Hpage & Htoken & Hcountry & Hlanguage).
  exists call.
  split; [exact Htrace|]. split; [exact Hdoc|]. split; [exact Hcache|].
  split; [exact (Hpage "first" (Num 20) eq_refl)|].
  split; [exact (Hpage "endCursor" (Str "abc") eq_refl)|].
  split; [exact (Htoken eq_refl)|].
  split; [exact (Hcountry eq_refl)|exact (Hlanguage eq_refl)].
Defined.

Lemma cursor_round_trip_witness :
  (∀ (info : PageInfo) (c' : string),
     cursor_of next info = Some c' →
     ∃ pv : object,
       getPaginationVariables {| request_url := Pagination_link next info |}
         {| pageBy := 20 |} = Normal pv
       ∧ pv !! cursor_variable next = Some (Str c'))
  ∧ nodes (orders (sample_customer [sample_order] (Some "abc"))) ≠ []
  ∧ cursor_of next (pageInfo (orders (sample_customer [sample_order] (Some "abc"))))
    = Some "abc"
  ∧ ∃ connection : Connection,
      orders_view_connection (sample_customer [sample_order] (Some "abc"))
      = Some connection
      ∧ ∀ args : LoaderArgs string,
          authenticated args = true →
          request args = {| request_url := Pagination_link next (pageInfo connection) |} →
          ∃ call : QueryCall,
            snd (loader args []) = [call]
            ∧ variables (options call) !! cursor_variable next = Some (Str "abc").
Proof.
  assert (Hsdk : ∀ (info : PageInfo) (c' : string),
             cursor_of next info = Some c' →
             ∃ pv : object,
               getPaginationVariables {| request_url := Pagination_link next info |}
                 {| pageBy := 20 |} = Normal pv
               ∧ pv !! cursor_variable next = Some (Str c')).
  { intros info c' Hcursor. exists (page_after c').
    cbn. unfold sample_getPaginationVariables, sample_Pagination_link.
    rewrite Hcursor. split; reflexivity. }
  split; [exact Hsdk|]. split; [discriminate|]. split; [reflexivity|].
  exact (cursor_round_trip (sample_customer [sample_order] (Some "abc")) next "abc"
           Hsdk ltac:(discriminate) eq_refl).
Defined.

End LoaderWitnesses.

Section ViewWitnesses.
Import OrdersRoute Sample.
#[local] Existing Instance sample_imports.

Lemma orders_view_empty_state_witness :
  nodes (orders (sample_customer [] None)) = []
  ∧ components (Orders (sample_customer [] None)) = ["EmptyOrders"]
  ∧ orders_view_connection (sample_customer [] None) = None.
Proof.
  split; [reflexivity|].
  destruct (orders_view_empty_state (sample_customer [] None) eq_refl)
    as (_ & Hcomponents & _ & Hconnection).
  split; [exact Hcomponents|exact Hconnection].
Defined.

Lemma order_row_links_witness :
  [sample_order] !! 0%nat = Some sample_order
  ∧ ∃ row : element,
      OrdersTable_rows [sample_order] !! 0%nat = Some row
      ∧ component_body row = Some (OrderItem sample_order)
      ∧ links (OrderItem sample_order)
        = ["/account/orders/gid://shopify/Order/1";
           "/account/orders/Z2lkOi8vc2hvcGlmeS9PcmRlci8x"]
      ∧ base64_decode "Z2lkOi8vc2hvcGlmeS9PcmRlci8x" = Some "gid://shopify/Order/1".
Proof.
  split; [reflexivity|].
  exact (order_row_links [sample_order] 0 sample_order eq_refl).
Defined.

(** The loader and the view on the sample requests, by evaluation. *)

Example loader_passes_thrown_string :
  loader (customer_args (Throw (Str "offline")) "/account/orders") []
  = (Normal (json (Obj {[ "error" := Str "offline" ]}) 400),
     [orders_call (customer_args (Throw (Str "offline")) "/account/orders") first_page]).
Proof. reflexivity. Qed.

Example loader_returns_customer :
  fst (loader next_page_args [])
  = Normal (json (Obj {[ "customer" := Obj ∅ ]}) 200).
Proof. reflexivity. Qed.

Example loader_previous_page_variables :
  getPaginationVariables {| request_url := "?direction=previous&cursor=xyz" |}
    {| pageBy := 20 |}
  = Normal {[ "last" := Num 20; "startCursor" := Str "xyz" ]}.
Proof. reflexivity. Qed.

Example orders_view_with_orders :
  components (Orders (sample_customer [sample_order] (Some "abc"))) = ["OrdersTable"]
  ∧ components (OrdersTable_children [sample_order; sample_order] false)
    = ["OrderItem"; "OrderItem"].
Proof. split; reflexivity. Qed.

End ViewWitnesses.

Section CollectionWitnesses.
Import Collection CollectionSample.
#[local] Existing Instance sample_imports.

Lemma grid_items_loading_witness :
  Products.nodes (sample_products 10) !! 8%nat = Some (sample_product [sample_variant])
  ∧ ∃ loading : option Loading,
      grid (CollectionTemplate "Boards" None (sample_products 10)) !! 8%nat
      = Some (ElProductItem "gid://shopify/Product/1"
                (sample_product [sample_variant]) loading)
      ∧ ((8 < 8)%nat → loading = Some eager)
      ∧ ((8 ≤ 8)%nat → loading = None)
      ∧ ∀ (image : Image) (e : element),
          featuredImage (sample_product [sample_variant]) = Some image →
          ProductItem (sample_product [sample_variant]) loading = Normal e →
          image_loading e = Some loading.
Proof.
  split; [reflexivity|].
  exact (grid_items_loading "Boards" None (sample_products 10) 8
           (sample_product [sample_variant]) eq_refl).
Defined.

Example grid_loading_markers :
  map (λ e, match e with ElProductItem _ _ loading => loading | _ => None end)
    (grid (CollectionTemplate "Boards" (Some "All boards") (sample_products 10)))
  = (replicate 8 (Some eager) ++ [None; None])%list.
Proof. reflexivity. Qed.

Example product_item_without_variants :
  ProductItem (sample_product []) (Some eager)
  = Throw (TypeError "Cannot read properties of undefined (reading 'selectedOptions')").
Proof. reflexivity. Qed.

Example product_item_with_variant :
  link_target <$> (match ProductItem (sample_product [sample_variant]) None with
                   | Normal e => Some e
                   | Throw _ => None
                   end)
  = Some (Some "/products/snowboard?Size=154cm").
Proof. reflexivity. Qed.

End CollectionWitnesses.

(** * Further properties of the code *)

(** ** The loader on every request *)

Section LoaderOutcomes.
Import OrdersRoute.
Context {I18n : Type} `{!Imports I18n}.
Implicit Types (args : LoaderArgs I18n) (tr : list QueryCall).

(** The detail that the [catch] clause puts in the body. *)
Lemma loader_catch_run (e : value) tr :
  loader_catch e tr
  = (Normal (json (Obj {[ "error" := match e with
                                     | Err _ message => Str message
                                     | _ => e
                                     end ]}) 400), tr).
Proof. by destruct e. Qed.

(** The run of the loader on an authenticated request, case by case. *)
Lemma loader_authenticated_cases args tr :
  authenticated args = true →
  (∃ e, getPaginationVariables (request args) {| pageBy := 20 |} = Throw e
        ∧ loader args tr = loader_catch e tr)
  ∨ (∃ pv e, getPaginationVariables (request args) {| pageBy := 20 |} = Normal pv
             ∧ loader args tr = loader_catch e (tr ++ [orders_call args pv])%list)
  ∨ (∃ pv customer,
       getPaginationVariables (request args) {| pageBy := 20 |} = Normal pv
       ∧ truthy customer = true
       ∧ loader args tr
         = (Normal (json (Obj {[ "customer" := customer ]}) 200),
            (tr ++ [orders_call args pv])%list)).
Proof.
  intros Hauth.
  destruct (getPaginationVariables (request args) {| pageBy := 20 |}) as [pv|e] eqn:Hpv.
  - right.
    rewrite loader_authenticated by done. unfold try_catch.
    rewrite (loader_try_query _ _ pv) by done.
    destruct (remote _ _) as [data|e]; [|left; by exists pv, e].
    destruct (destructure data "customer") as [customer|e]; [|left; by exists pv, e].
    destruct (truthy customer) eqn:Hcustomer; cbn.
    + right. by exists pv, customer.
    + left. by exists pv, (Err "Error" "Customer not found").
  - left. exists e. split; [done|]. by apply loader_pagination_throws.
Qed.

(** X1.  When the request is authenticated and the remote API answers
    with data that hold a customer, the loader answers with status 200 and
    the body [{customer}], after the one query. *)
Theorem loader_success args tr (pv : object) (data : value) :
  authenticated args = true →
  getPaginationVariables (request args) {| pageBy := 20 |} = Normal pv →
  remote (storefront (context args)) (orders_call args pv) = Normal data →
  nullish data = false →
  truthy (get_property data "customer") = true →
  loader args tr
  = (Normal (json (Obj {[ "customer" := get_property data "customer" ]}) 200),
     (tr ++ [orders_call args pv])%list).
Proof.
  intros Hauth Hpv Hremote Hdata Hcustomer.
  rewrite loader_authenticated by done. unfold try_catch.
  rewrite (loader_try_query _ _ pv) by done.
  rewrite Hremote. unfold destructure. by rewrite Hdata, Hcustomer.
Qed.

(** X2.  The loader answers with the redirect to the login path exactly
    when the access token of the session is falsy (absent, [null], empty,
    zero or [false]), and then it sends no query; with a truthy token it
    never redirects. *)
Theorem loader_redirects_iff_unauthenticated args tr :
  (authenticated args = false →
   loader args tr
   = (Normal (redirect (localizePath "/account/login" (context_i18n (context args)))),
      tr))
  ∧ (authenticated args = true →
     ∀ url : string, fst (loader args tr) ≠ Normal (redirect url)).
Proof.
  split; [apply loader_unauthenticated|].
  intros Hauth url.
  destruct (loader_authenticated_cases args tr Hauth)
    as [(e & _ & ->) | [(pv & e & _ & ->) | (pv & customer & _ & _ & ->)]];
    rewrite ?loader_catch_run; cbn; congruence.
Qed.


(** X4.  On every request the loader sends at most one query, after
    those sent before; the one it sends is the customer orders query,
    past the cache. *)
Theorem loader_at_most_one_query args tr :
  snd (loader args tr) = tr
  ∨ ∃ call : QueryCall,
      snd (loader args tr) = (tr ++ [call])%list
      ∧ document call = CUSTOMER_ORDERS_QUERY
      ∧ cache (options call) = CacheNone.
Proof.
  destruct (authenticated args) eqn:Hauth.
  - destruct (loader_authenticated_cases args tr Hauth)
      as [(e & _ & ->) | [(pv & e & _ & ->) | (pv & customer & _ & _ & ->)]];
      rewrite ?loader_catch_run; cbn; [by left| |];
      right; by exists (orders_call args pv).
  - left. by rewrite loader_unauthenticated.
Qed.

(** X5.  When building the pagination variables throws [e], the loader
    sends no query and answers with status 400 and the detail of [e]: its
    message if it is an [Error], [e] itself if not. *)
Theorem loader_pagination_failure args tr (e : value) :
  authenticated args = true →
  getPaginationVariables (request args) {| pageBy := 20 |} = Throw e →
  loader args tr
  = (Normal (json (Obj {[ "error" := match e with
                                     | Err _ message => Str message
                                     | _ => e
                                     end ]}) 400), tr).
Proof.
  intros Hauth Hpv.
  rewrite loader_authenticated by done.
  unfold try_catch, loader_try, mbind, eff_mbind, eff_bind, lift.
  rewrite Hpv. apply loader_catch_run.
Qed.

(** X6.  When the remote API answers an authenticated request with no
    data at all ([undefined] or [null]), destructuring the answer throws a
    [TypeError] inside the [try] block, and the loader answers with status
    400 and the message of that error. *)
Theorem loader_no_data args tr (pv : object) (data : value) :
  authenticated args = true →
  getPaginationVariables (request args) {| pageBy := 20 |} = Normal pv →
  remote (storefront (context args)) (orders_call args pv) = Normal data →
  nullish data = true →
  ∃ message : string,
    fst (loader_try args (session_get (session (context args)) "customerAccessToken") tr)
    = Throw (TypeError message)
    ∧ loader args tr
      = (Normal (json (Obj {[ "error" := Str message ]}) 400),
         (tr ++ [orders_call args pv])%list).
Proof.
  intros Hauth Hpv Hremote Hdata.
  eexists. rewrite loader_authenticated by done. unfold try_catch.
  rewrite (loader_try_query _ _ pv) by done.
  rewrite Hremote. unfold destructure. rewrite Hdata. cbn. split; reflexivity.
Qed.

(** X7.  The query of an authenticated request carries the variables
    [customerAccessToken], [country] and [language] and those that
    [getPaginationVariables] built, and no others. *)
Theorem loader_query_variable_names args (pv : object) :
  authenticated args = true →
  getPaginationVariables (request args) {| pageBy := 20 |} = Normal pv →
  ∃ call : QueryCall,
    snd (loader args []) = [call]
    ∧ dom (variables (options call))
      = ({[ "customerAccessToken"; "country"; "language" ]} : gset string) ∪ dom pv.
Proof.
  intros Hauth Hpv. exists (orders_call args pv).
  split; [by rewrite (loader_trace _ _ pv)|].
  cbn. unfold query_variables, with_spread.
  rewrite dom_union_L, !dom_insert_L, dom_singleton_L.
  by rewrite (comm_L (∪) (dom pv)), !(assoc_L (∪)).
Qed.

(** X8.  No query leaves the loader with a falsy access token: in every
    query it sends, the variable [customerAccessToken] is the truthy
    token of the session, as long as the pagination variables do not
    define a variable of that name. *)
Theorem loader_sends_truthy_token args (pv : object) (call : QueryCall) :
  getPaginationVariables (request args) {| pageBy := 20 |} = Normal pv →
  pv !! "customerAccessToken" = None →
  call ∈ snd (loader args []) →
  ∃ token : value,
    variables (options call) !! "customerAccessToken" = Some token
    ∧ token = access_token args
    ∧ truthy token = true.
Proof.
  intros Hpv Hfree Hcall.
  destruct (authenticated args) eqn:Hauth.
  - rewrite (loader_trace _ _ pv) in Hcall by done.
    apply list_elem_of_singleton in Hcall as ->.
    exists (access_token args). split_and!; [|done|done].
    cbn. by rewrite query_variables_literal.
  - rewrite loader_unauthenticated in Hcall by done.
    by apply not_elem_of_nil in Hcall.
Qed.

End LoaderOutcomes.

(** ** The orders view, rendered *)

Section ViewOutcomes.
Import OrdersRoute.
Context {I18n : Type} `{!Imports I18n}.

Lemma append_cancel_l (p a b : string) : p +:+ a = p +:+ b → a = b.
Proof. induction p as [|c p IH]; cbn; [done|]. intros [= Heq]. by apply IH. Qed.

(** The encoding is four digits for every three bytes begun. *)
Lemma btoa_length_bounded (n : nat) (s : string) :
  (String.length s ≤ n)%nat →
  String.length (btoa s) = (4 * ((String.length s + 2) / 3))%nat.
Proof.
  revert s. induction n as [n IH] using lt_wf_ind. intros s Hlen.
  destruct s as [|a [|b [|c rest]]]; [done..|].
  cbn [btoa String.length]. cbn [String.length] in Hlen.
  rewrite (IH (String.length rest)) by lia.
  replace (S (S (S (String.length rest))) + 2)%nat
    with (1 * 3 + (String.length rest + 2))%nat by lia.
  rewrite Nat.div_add_l by done. lia.
Qed.

Lemma btoa_length (s : string) :
  String.length (btoa s) = (4 * ((String.length s + 2) / 3))%nat.
Proof. by apply (btoa_length_bounded (String.length s)). Qed.

Lemma btoa_longer (s : string) : s ≠ "" → (String.length s < String.length (btoa s))%nat.
Proof.
  intros Hs. rewrite btoa_length.
  assert (String.length s ≠ 0)%nat by (by destruct s).
  pose proof (Nat.div_mod_eq (String.length s + 2) 3).
  pose proof (Nat.mod_upper_bound (String.length s + 2) 3). lia.
Qed.

Lemma rows_links (orders_nodes : list OrderItemFragment) :
  concat (map links (map expand (OrdersTable_rows orders_nodes)))
  = concat (map (λ order, ["/account/orders/" +:+ id order;
                           "/account/orders/" +:+ btoa (id order)]) orders_nodes).
Proof.
  induction orders_nodes as [|order rest IH]; [done|].
  cbn. by rewrite <- IH.
Qed.

(** X9.  [OrdersTable] guards [Pagination] itself: a connection without
    nodes gets the empty-state element, and a connection that goes to
    [Pagination] is the one given, unchanged, and has nodes. *)
Theorem orders_table_never_paginates_empty (connection : Connection) :
  (nodes connection = [] →
   OrdersTable connection = Host "div" (Some "acccount-orders") [ElEmptyOrders])
  ∧ ∀ c : Connection,
      pagination_connection (OrdersTable connection) = Some c →
      c = connection ∧ nodes c ≠ [].
Proof.
  unfold OrdersTable. split.
  - by intros ->.
  - intros c. destruct (nodes connection) eqn:Hnodes; cbn; [done|].
    intros [= <-]. split; [done|]. by rewrite Hnodes.
Qed.

(** X10.  Through [Orders] and [OrdersTable] together, [Pagination] gets
    a connection exactly when the customer has orders on the page, and it
    is the connection of the customer, page info included. *)
Theorem pagination_gets_connection_iff_orders (customer : CustomerOrdersFragment)
    (c : Connection) :
  orders_view_connection customer = Some c
  ↔ c = orders customer ∧ nodes (orders customer) ≠ [].
Proof.
  unfold orders_view_connection, Orders.
  destruct (nodes (orders customer)) as [|order rest] eqn:Hnodes; cbn.
  - split; [done|]. by intros [_ ?].
  - unfold OrdersTable. rewrite Hnodes. cbn. split.
    + by intros [= <-].
    + by intros [-> _].
Qed.

(** X11.  What the render prop of the table renders links to: for each
    node, in order, the raw and the encoded detail link of that order, and
    nothing else, whether the page is loading or not. *)
Theorem orders_table_links (orders_nodes : list OrderItemFragment) (isLoading : bool) :
  links (expand (OrdersTable_children orders_nodes isLoading))
  = concat (map (λ order, ["/account/orders/" +:+ id order;
                           "/account/orders/" +:+ btoa (id order)]) orders_nodes).
Proof.
  unfold OrdersTable_children. cbn [expand map links concat].
  rewrite rows_links.
  destruct isLoading; cbn; by rewrite !app_nil_r.
Qed.


(** X13.  The two links of a row are different links, unless the
    identifier of the order is empty: an identifier is never its own
    base64 encoding. *)
Theorem order_row_links_differ (order : OrderItemFragment) :
  NoDup (links (OrderItem order)) ↔ id order ≠ "".
Proof.
  cbn. split.
  - intros Hnodup Hid. rewrite Hid in Hnodup. cbn in Hnodup.
    apply NoDup_cons in Hnodup as [Hnotin _]. apply Hnotin. by left.
  - intros Hid. apply NoDup_cons. split; [|apply NoDup_singleton].
    intros Hin. apply list_elem_of_singleton in Hin.
    apply append_cancel_l in Hin.
    pose proof (btoa_longer (id order) Hid) as Hlen.
    rewrite <- Hin in Hlen. lia.
Qed.

End ViewOutcomes.

(** ** The collection grid, rendered *)

Section CollectionOutcomes.
Import Collection.
Context `{!Imports}.

Lemma grid_of_template (title : string) (description : option string)
    (products : Products.Connection) :
  grid (CollectionTemplate title description products)
  = imap (λ i n, CollectionTemplate_children {| node := n; index := i |})
      (Products.nodes products).
Proof. reflexivity. Qed.

(** Rendering a list of [ProductItem] elements, whatever their keys and
    [loading] props. *)
Lemma render_items_imap (f : nat → ProductItemFragment → element)
    (ps : list ProductItemFragment) :
  (∀ i p, ∃ key loading, f i p = ElProductItem key p loading) →
  ((∃ rs, render_items (imap f ps) = Normal rs)
   ↔ Forall (λ p, nodes (variants p) ≠ []) ps)
  ∧ (∀ x, render_items (imap f ps) = Throw x → ∃ message, x = TypeError message).
Proof.
  revert f. induction ps as [|p ps IH]; intros f Hf.
  - cbn. split; [split; eauto|done].
  - destruct (IH (f ∘ S)) as [IHiff IHthrow]; [intros i q; apply Hf|].
    destruct (Hf 0%nat p) as (key & loading & Hp).
    cbn [imap render_items]. rewrite Hp. cbn [render_item].
    unfold ProductItem.
    destruct (nodes (variants p)) as [|variant rest] eqn:Hvariants; cbn.
    + split.
      * split; [by intros [rs ?]|]. intros Hall.
        apply Forall_cons in Hall as [Hp' _]. by rewrite Hvariants in Hp'.
      * intros x [= <-]. eauto.
    + destruct (render_items (imap (f ∘ S) ps)) as [rs|x] eqn:Hrest.
      * split; [|done]. split; [|eauto].
        intros _. apply Forall_cons. split; [by rewrite Hvariants|].
        apply IHiff. eauto.
      * split; [|intros y [= <-]; by apply IHthrow].
        split; [by intros [rs ?]|].
        intros Hall. apply Forall_cons in Hall as [_ Hall].
        apply IHiff in Hall as [rs ?]. done.
Qed.

(** X14.  Of a grid of [n] products, the first [min 8 n] items carry the
    ['eager'] marker and the other [n - 8] carry none: never more than
    eight items load eagerly, however long the list. *)
Theorem grid_loading_profile (title : string) (description : option string)
    (products : Products.Connection) :
  map item_loading (grid (CollectionTemplate title description products))
  = (replicate (min 8 (length (Products.nodes products))) (Some eager)
     ++ replicate (length (Products.nodes products) - 8) None)%list.
Proof.
  rewrite grid_of_template. apply list_eq. intros i.
  rewrite list_lookup_fmap, list_lookup_imap.
  destruct (Products.nodes products !! i) as [p|] eqn:Hi;
    cbn -[min Nat.sub replicate Nat.ltb].
  - apply lookup_lt_Some in Hi.
    destruct (Nat.ltb_spec i 8) as [Hlt|Hge].
    + rewrite lookup_app_l by (rewrite length_replicate; lia).
      symmetry. apply lookup_replicate_2. lia.
    + rewrite lookup_app_r by (rewrite length_replicate; lia).
      rewrite length_replicate. symmetry. apply lookup_replicate_2. lia.
  - apply lookup_ge_None in Hi. symmetry. apply lookup_ge_None.
    rewrite length_app, !length_replicate. lia.
Qed.

(** X15.  The grid of a collection renders exactly when every product
    in it has a variant node: one product without variants makes the
    rendering of the whole grid throw, and what is thrown is a
    [TypeError]. *)
Theorem grid_renders_iff_variants (title : string) (description : option string)
    (products : Products.Connection) :
  ((∃ rs : list element,
      render_items (grid (CollectionTemplate title description products)) = Normal rs)
   ↔ Forall (λ p, nodes (variants p) ≠ []) (Products.nodes products))
  ∧ ∀ x : JS.value,
      render_items (grid (CollectionTemplate title description products)) = Throw x →
      ∃ message : string, x = TypeError message.
Proof.
  rewrite grid_of_template. apply render_items_imap.
  intros i p. unfold CollectionTemplate_children. cbn. eauto.
Qed.


(** X17.  For a product without a featured image the [loading] marker
    has no effect: the item renders the same, without an image, whatever
    marker it is given. *)
Theorem product_item_without_image (product : ProductItemFragment)
    (loading1 loading2 : option Loading) :
  featuredImage product = None →
  ProductItem product loading1 = ProductItem product loading2
  ∧ ∀ e : element, ProductItem product loading1 = Normal e → image_loading e = None.
Proof.
  intros Himage. unfold ProductItem. rewrite Himage.
  split; [done|].
  destruct (read_selectedOptions _); [|done]. by intros e [= <-].
Qed.

End CollectionOutcomes.

(** ** The further statements at concrete requests *)

Section OutcomeWitnesses.
Import OrdersRoute Sample.
#[local] Existing Instance sample_imports.

Lemma loader_success_witness :
  authenticated next_page_args = true
  ∧ getPaginationVariables (request next_page_args)
      {| pageBy := 20 |}
    = Normal (page_after "abc")
  ∧ remote (storefront (context next_page_args))
      (orders_call next_page_args (page_after "abc"))
    = Normal (Obj {[ "customer" := Obj ∅ ]})
  ∧ nullish (Obj {[ "customer" := Obj ∅ ]}) = false
  ∧ truthy (get_property (Obj {[ "customer" := Obj ∅ ]}) "customer") = true
  ∧ loader next_page_args []
    = (Normal (json (Obj {[ "customer" := Obj ∅ ]}) 200),
       [orders_call next_page_args (page_after "abc")]).
Proof.
  split; [reflexivity|]. split; [reflexivity|]. split; [reflexivity|].
  split; [reflexivity|]. split; [reflexivity|].
  exact (loader_success next_page_args [] (page_after "abc")
           (Obj {[ "customer" := Obj ∅ ]}) eq_refl eq_refl eq_refl eq_refl eq_refl).
Defined.

Lemma loader_pagination_failure_witness :
  authenticated throwing_args = true
  ∧ @getPaginationVariables string failing_imports (request throwing_args)
      {| pageBy := 20 |}
    = Throw (Err "Error" "no request")
  ∧ @loader string failing_imports throwing_args []
    = (Normal (json (Obj {[ "error" := Str "no request" ]}) 400), []).
Proof.
  split; [reflexivity|]. split; [reflexivity|].
  exact (@loader_pagination_failure string failing_imports throwing_args []
           (Err "Error" "no request") eq_refl eq_refl).
Defined.

Lemma loader_no_data_witness :
  authenticated no_data_args = true
  ∧ getPaginationVariables (request no_data_args)
      {| pageBy := 20 |}
    = Normal first_page
  ∧ remote (storefront (context no_data_args))
      (orders_call no_data_args first_page)
    = Normal Undefined
  ∧ nullish Undefined = true
  ∧ ∃ message : string,
      fst (loader_try no_data_args
             (session_get (session (context no_data_args)) "customerAccessToken") [])
      = Throw (TypeError message)
      ∧ loader no_data_args []
        = (Normal (json (Obj {[ "error" := Str message ]}) 400),
           [orders_call no_data_args first_page]).
Proof.
  split; [reflexivity|]. split; [reflexivity|]. split; [reflexivity|].
  split; [reflexivity|].
  exact (loader_no_data no_data_args [] first_page Undefined
           eq_refl eq_refl eq_refl eq_refl).
Defined.

Lemma loader_query_variable_names_witness :
  authenticated next_page_args = true
  ∧ getPaginationVariables (request next_page_args)
      {| pageBy := 20 |}
    = Normal (page_after "abc")
  ∧ ∃ call : QueryCall,
      snd (loader next_page_args []) = [call]
      ∧ dom (variables (options call))
        = ({[ "customerAccessToken"; "country"; "language" ]} : gset string)
          ∪ dom (page_after "abc").
Proof.
  split; [reflexivity|]. split; [reflexivity|].
  exact (loader_query_variable_names next_page_args
           (page_after "abc") eq_refl eq_refl).
Defined.

Lemma loader_sends_truthy_token_witness :
  getPaginationVariables (request next_page_args)
    {| pageBy := 20 |}
  = Normal (page_after "abc")
  ∧ page_after "abc" !! "customerAccessToken" = None
  ∧ orders_call next_page_args (page_after "abc")
    ∈ snd (loader next_page_args [])
  ∧ ∃ token : value,
      variables (options (orders_call next_page_args (page_after "abc")))
      !! "customerAccessToken" = Some token
      ∧ token = access_token next_page_args
      ∧ truthy token = true.
Proof.
  assert (Hcall : orders_call next_page_args (page_after "abc")
                  ∈ snd (loader next_page_args []))
    by (apply list_elem_of_singleton; reflexivity).
  split; [reflexivity|]. split; [reflexivity|]. split; [exact Hcall|].
  exact (loader_sends_truthy_token next_page_args
           (page_after "abc") _ eq_refl eq_refl Hcall).
Defined.


End OutcomeWitnesses.

Section CollectionOutcomeWitnesses.
Import Collection CollectionSample.
#[local] Existing Instance sample_imports.


Lemma product_item_without_image_witness :
  featuredImage plain_product = None
  ∧ ProductItem plain_product (Some eager)
    = ProductItem plain_product None
  ∧ ∀ e : element,
      ProductItem plain_product (Some eager) = Normal e →
      image_loading e = None.
Proof.
  split; [reflexivity|].
  exact (product_item_without_image plain_product (Some eager) None
           eq_refl).
Defined.

End CollectionOutcomeWitnesses.
